(** * js-garden: the typography bootstrap module, [src/utils/typography.js]

    The module patches the imported theme object, builds one engine with
    the [typography] package, injects its styles outside production and
    exports the engine with two of its members.  The package and the theme
    are imports: they are binders of the development, and the statements
    below hold for every package the module could be linked against. *)

From Stdlib Require Import QArith.
From stdpp Require Import base strings gmap list.

Set Default Proof Using "Type".

(** ** Style tables

    A style table maps a CSS selector to a record of CSS properties, the
    shape of the object literal returned at lines 7-11. *)

Abbreviation StyleRecord := (gmap string string).
Abbreviation StyleTable := (gmap string (gmap string string)).

Section Module_typography.

(** What the package calls a style callback with, its numbers, the lengths
    and the scale records it answers with, the style target it writes to
    and what it may throw. *)
Context {Arg Number Length ScaleResult Document Exn : Type}.

(** Property values of a theme object. *)
Inductive value : Type :=
| VString (s : string)
| VNumber (n : Number)
| VStrings (l : list string)
| VStyleFn (f : Arg -> StyleTable).

(** The instance [new Typography(..)] answers with; the module reads these
    three members (lines 18, 21 and 22).  [rhythm] and [scale] are closures:
    the page in [src/pages/404.js] calls [rhythm(0.25)] with no receiver. *)
Record Engine : Type := {
  rhythm : Number -> Length;
  scale : Number -> ScaleResult;
  injectStyles : Document -> Exn + Document
}.

(** Calls that cross the boundary to the package, in the order made. *)
Inductive call : Type :=
| CallNew (theme : gmap string value)
| CallInjectStyles (typography : Engine).

(** The process as the module sees it: the shared theme object behind the
    import [DeYoung], the style target, and the journal of package calls. *)
Record World : Type := {
  DeYoung : gmap string value;
  document : Document;
  calls : list call
}.

Definition set_DeYoung (t : gmap string value) (w : World) : World :=
  {| DeYoung := t; document := document w; calls := calls w |}.

Definition set_document (d : Document) (w : World) : World :=
  {| DeYoung := DeYoung w; document := d; calls := calls w |}.

Definition record_call (c : call) (w : World) : World :=
  {| DeYoung := DeYoung w; document := document w; calls := calls w ++ [c] |}.

(** *** Statements that may throw, over the world *)

Definition M (A : Type) : Type := World -> (Exn + A) * World.

Definition ret {A} (a : A) : M A := fun w => (inr a, w).

Definition bind {A B} (m : M A) (k : A -> M B) : M B :=
  fun w =>
    match m w with
    | (inl e, w') => (inl e, w')
    | (inr a, w') => k a w'
    end.

Notation "'let!' x ':=' m 'in' k" := (bind m (fun x => k))
  (at level 10, x name, m at level 100, k at level 200).
Notation "m ';;;' k" := (bind m (fun _ => k))
  (at level 100, k at level 200, right associativity).

(** ** The module, line by line *)

Definition selector : string := "a.gatsby-resp-image-link".

(** Lines 6-12: the arrow function ignores its arguments. *)
Definition overrideThemeStyles : Arg -> StyleTable :=
  fun _ => {[ selector := {[ "boxShadow" := "none" ]} ]}.

(** [DeYoung.overrideThemeStyles = ...] as a function of the theme object. *)
Definition patch (theme : gmap string value) : gmap string value :=
  <[ "overrideThemeStyles" := VStyleFn overrideThemeStyles ]> theme.

(** The assignment writes the shared object in place. *)
Definition assign_overrideThemeStyles : M unit :=
  fun w => (inr tt, set_DeYoung (patch (DeYoung w)) w).

(** The table a theme's [overrideThemeStyles] answers with; a theme that
    has no such function contributes nothing. *)
Definition override_table (theme : gmap string value) (a : Arg) : StyleTable :=
  match theme !! "overrideThemeStyles" with
  | Some (VStyleFn f) => f a
  | _ => ∅
  end.


(** The constructor of the package. *)
Variable Typography : gmap string value -> Exn + Engine.

(** Line 14: [new Typography(DeYoung)]. *)
Definition new_Typography : M Engine :=
  fun w =>
    let w' := record_call (CallNew (DeYoung w)) w in
    match Typography (DeYoung w) with
    | inl e => (inl e, w')
    | inr typography => (inr typography, w')
    end.

(** Line 18: [typography.injectStyles()]. *)
Definition call_injectStyles (typography : Engine) : M unit :=
  fun w =>
    let w' := record_call (CallInjectStyles typography) w in
    match injectStyles typography (document w) with
    | inl e => (inl e, w')
    | inr d => (inr tt, set_document d w')
    end.

(** Line 17: [process.env.NODE_ENV !== `production`]; an unset variable
    reads as [undefined], here [None]. *)
Definition not_production (NODE_ENV : option string) : bool :=
  negb (bool_decide (NODE_ENV = Some "production")).

(** Lines 21-23. *)
Record Exports : Type := {
  export_rhythm : Number -> Length;
  export_scale : Number -> ScaleResult;
  export_default : Engine
}.

(** Evaluation of the module, top to bottom. *)
Definition initialize (NODE_ENV : option string) : M Exports :=
  assign_overrideThemeStyles ;;;
  let! typography := new_Typography in
  (if not_production NODE_ENV then call_injectStyles typography else ret tt) ;;;
  ret {| export_rhythm := rhythm typography;
         export_scale := scale typography;
         export_default := typography |}.

(** *** Reading the journal *)

Fixpoint count_injectStyles (l : list call) : nat :=
  match l with
  | [] => 0
  | CallInjectStyles _ :: l' => S (count_injectStyles l')
  | CallNew _ :: l' => count_injectStyles l'
  end.

Fixpoint count_new (l : list call) : nat :=
  match l with
  | [] => 0
  | CallNew _ :: l' => S (count_new l')
  | CallInjectStyles _ :: l' => count_new l'
  end.

Definition exports_of (typography : Engine) : Exports :=
  {| export_rhythm := rhythm typography;
     export_scale := scale typography;
     export_default := typography |}.

End Module_typography.

(** ** Test doubles

    Stand-ins for the package, to run the module on concrete themes.  Their
    engines answer with placeholders; only the calls matter.  The style
    target is the list of style nodes of the page. *)

Module Double.

Definition theme : Type := gmap string (@value unit Z).
Definition engine : Type := @Engine Z Z Z (list string) string.
Definition world : Type := @World unit Z Z Z (list string) string.

Definition stub : engine :=
  {| rhythm := fun m => m;
     scale := fun s => s;
     injectStyles := fun nodes => inr ("typography.js" :: nodes) |}.

(** A constructor that takes any theme. *)
Definition lenient (t : theme) : string + engine := inr stub.

(** A constructor that insists on a base font size. *)
Definition strict (t : theme) : string + engine :=
  match t !! "baseFontSize" with
  | Some _ => inr stub
  | None => inl "ConfigurationError"
  end.

(** A constructor whose engine cannot reach the style target. *)
Definition headless (t : theme) : string + engine :=
  inr {| rhythm := fun m => m;
         scale := fun s => s;
         injectStyles := fun _ => inl "no document" |}.

(** A theme with a base font size and a header font family. *)
Definition plain : theme :=
  {[ "baseFontSize" := VString "21px";
     "headerFontFamily" := VStrings ["Alegreya Sans"; "sans-serif"] ]}.


(** A theme with no base font size. *)
Definition sizeless : theme :=
  {[ "headerFontFamily" := VStrings ["Alegreya Sans"; "sans-serif"] ]}.

Definition boot (t : theme) : world :=
  {| DeYoung := t; document := []; calls := [] |}.

End Double.

(** ** The not-found page, [src/pages/404.js]

    [render] reads [this.props], walks [data.site.siteMetadata.title] and
    answers with a tree of React elements.  [Layout], [SEO] and [Link] are
    imported components: building the tree names them and does not call
    them. *)

Section NotFoundPage_definitions.

Context {Number Length ScaleResult Document Exn : Type}.

#[local] Set Warnings "-register-all".

(** Values that reach the page through its props. *)
Inductive js : Type :=
| JUndefined
| JNull
| JBool (b : bool)
| JNumber (n : Number)
| JString (s : string)
| JObject (o : gmap string js).

(** What a failed property read throws; it records the property asked for. *)
Inductive exception : Type :=
| TypeError (reading : string).

Definition nullish (v : js) : bool :=
  match v with
  | JUndefined | JNull => true
  | _ => false
  end.

(** [v.key]: reading a property of [undefined] or [null] throws; an object
    answers with the property or [undefined]; the other primitives have none
    of the properties this file reads and answer [undefined]. *)
Definition member (v : js) (key : string) : exception + js :=
  match v with
  | JUndefined | JNull => inl (TypeError key)
  | JObject o => inr (default JUndefined (o !! key))
  | _ => inr JUndefined
  end.

(** The same read where nothing is thrown: [undefined] for what is not there. *)
Definition peek (v : js) (key : string) : js :=
  match v with
  | JObject o => default JUndefined (o !! key)
  | _ => JUndefined
  end.

(** [this.props.key]: the props of a component are always an object. *)
Definition prop (props : gmap string js) (key : string) : js :=
  default JUndefined (props !! key).

Inductive component : Type := Layout | SEO | Link.

Inductive tag : Type :=
| Comp (c : component)
| Host (name : string).

(** An attribute holds a value or, for [style], a record of lengths. *)
Inductive attr : Type :=
| AttrValue (v : js)
| AttrStyle (s : gmap string Length).

Inductive element : Type :=
| Text (s : string)
| Element (type : tag) (attrs : gmap string attr) (children : list element).

(** Lines 14-25, with the three values the tree depends on. *)
Definition page (marginBottom : Length) (location siteTitle : js) : element :=
  Element (Comp Layout)
    {[ "location" := AttrValue location; "title" := AttrValue siteTitle ]}
    [ Element (Comp SEO) {[ "title" := AttrValue (JString "404: Not Found") ]} [];
      Element (Host "h1") ∅ [Text "Not Found"];
      Element (Host "p")
        {[ "style" := AttrStyle {[ "marginBottom" := marginBottom ]} ]}
        [Text "You just hit a route that doesn't exist."];
      Element (Comp Link) {[ "to" := AttrValue (JString "/") ]}
        [Text "Go back to home-page."] ].

(** Lines 9-26.  [exports] is the typography module the page imports
    [rhythm] from, [quarter] the number the literal [0.25] denotes. *)
Definition render (exports : @Exports Number Length ScaleResult Document Exn)
    (quarter : Number) (props : gmap string js) : exception + element :=
  let data := prop props "data" in
  match member data "site" with
  | inl e => inl e
  | inr site =>
    match member site "siteMetadata" with
    | inl e => inl e
    | inr siteMetadata =>
      match member siteMetadata "title" with
      | inl e => inl e
      | inr siteTitle =>
        inr (page (export_rhythm exports quarter) (prop props "location") siteTitle)
      end
    end
  end.

(** The page with its literal: line 19 calls [rhythm(0.25)], and [literal]
    is how the package's numbers read a decimal numeral. *)
Definition NotFoundPage (literal : Q -> Number)
    (exports : @Exports Number Length ScaleResult Document Exn)
    (props : gmap string js) : exception + element :=
  render exports (literal (1 # 4)%Q) props.

End NotFoundPage_definitions.

(** Stand-ins with rational numbers, where [0.25] is a number. *)

Module PageDouble.

Definition engine : Type := @Engine Q Q Q (list string) string.

Definition stub : engine :=
  {| rhythm := fun m => Qmult m (29 # 20)%Q;
     scale := fun s => s;
     injectStyles := fun nodes => inr ("typography.js" :: nodes) |}.

Definition lenient (t : gmap string (@value unit Q)) : string + engine := inr stub.

Definition boot : @World unit Q Q Q (list string) string :=
  {| DeYoung := ∅; document := []; calls := [] |}.

(** Props as the site generator hands them over. *)
Definition full : gmap string (@js Q) :=
  {[ "location" := JObject {[ "pathname" := JString "/nowhere" ]};
     "data" := JObject {[ "site" := JObject {[ "siteMetadata" :=
                 JObject {[ "title" := JString "Garden" ]} ]} ]} ]}.

(** Props whose site metadata carries no title. *)
Definition untitled : gmap string (@js Q) :=
  {[ "data" := JObject {[ "site" := JObject {[ "siteMetadata" := JObject ∅ ]} ]} ]}.

(** Props where the query answered with no site. *)
Definition siteless : gmap string (@js Q) :=
  {[ "data" := JObject {[ "site" := JNull ]} ]}.

End PageDouble.

Section Properties.

Context {Arg Number Length ScaleResult Document Exn : Type}.

(** The constructor of the package the module is linked against. *)
Variable Typography : gmap string (@value Arg Number)
                      -> Exn + @Engine Number Length ScaleResult Document Exn.

Implicit Types (w : @World Arg Number Length ScaleResult Document Exn).
Implicit Types (typography : @Engine Number Length ScaleResult Document Exn).
Implicit Types (exports : @Exports Number Length ScaleResult Document Exn).
Implicit Types (l : list (@call Arg Number Length ScaleResult Document Exn)).
Implicit Types (NODE_ENV : option string).

(** ** The four ways a run can go *)

Lemma count_injectStyles_app l1 l2 :
  count_injectStyles (l1 ++ l2) = count_injectStyles l1 + count_injectStyles l2.
Proof.
  induction l1 as [|c l1 IH]; simpl; [done|].
  destruct c; simpl; lia.
Qed.

Lemma count_new_app l1 l2 :
  count_new (l1 ++ l2) = count_new l1 + count_new l2.
Proof.
  induction l1 as [|c l1 IH]; simpl; [done|].
  destruct c; simpl; lia.
Qed.

Lemma not_production_true NODE_ENV :
  NODE_ENV ≠ Some "production" -> not_production NODE_ENV = true.
Proof.
  intros Hne. unfold not_production.
  by rewrite bool_decide_eq_false_2.
Qed.

Lemma not_production_false : not_production (Some "production") = false.
Proof. reflexivity. Qed.

(** The constructor throws: the exception leaves the module. *)
Lemma initialize_constructor_throws NODE_ENV w e :
  Typography (patch (DeYoung w)) = inl e ->
  initialize Typography NODE_ENV w =
    (inl e, {| DeYoung := patch (DeYoung w);
               document := document w;
               calls := calls w ++ [CallNew (patch (DeYoung w))] |}).
Proof.
  intros HT. unfold initialize, bind, assign_overrideThemeStyles, new_Typography.
  simpl. by rewrite HT.
Qed.

(** Production: the guard is false and the module ends after line 14. *)
Lemma initialize_production w typography :
  Typography (patch (DeYoung w)) = inr typography ->
  initialize Typography (Some "production") w =
    (inr (exports_of typography),
     {| DeYoung := patch (DeYoung w);
        document := document w;
        calls := calls w ++ [CallNew (patch (DeYoung w))] |}).
Proof.
  intros HT. unfold initialize, bind, assign_overrideThemeStyles, new_Typography.
  simpl. by rewrite HT.
Qed.

(** Outside production, injection succeeds. *)
Lemma initialize_injects NODE_ENV w typography d :
  NODE_ENV ≠ Some "production" ->
  Typography (patch (DeYoung w)) = inr typography ->
  injectStyles typography (document w) = inr d ->
  initialize Typography NODE_ENV w =
    (inr (exports_of typography),
     {| DeYoung := patch (DeYoung w);
        document := d;
        calls := calls w ++ [CallNew (patch (DeYoung w))]
                         ++ [CallInjectStyles typography] |}).
Proof.
  intros Hne HT Hinj.
  unfold initialize, bind, assign_overrideThemeStyles, new_Typography.
  simpl. rewrite HT, (not_production_true _ Hne).
  unfold call_injectStyles. simpl. rewrite Hinj.
  unfold ret, set_document, record_call, set_DeYoung. simpl.
  by rewrite <- app_assoc.
Qed.

(** Outside production, injection throws: nothing catches it. *)
Lemma initialize_injection_throws NODE_ENV w typography e :
  NODE_ENV ≠ Some "production" ->
  Typography (patch (DeYoung w)) = inr typography ->
  injectStyles typography (document w) = inl e ->
  initialize Typography NODE_ENV w =
    (inl e,
     {| DeYoung := patch (DeYoung w);
        document := document w;
        calls := calls w ++ [CallNew (patch (DeYoung w))]
                         ++ [CallInjectStyles typography] |}).
Proof.
  intros Hne HT Hinj.
  unfold initialize, bind, assign_overrideThemeStyles, new_Typography.
  simpl. rewrite HT, (not_production_true _ Hne).
  unfold call_injectStyles. simpl. rewrite Hinj.
  unfold ret, set_document, record_call, set_DeYoung. simpl.
  by rewrite <- app_assoc.
Qed.

(** ** Properties of one evaluation *)



(** C2.  With [NODE_ENV] equal to ["production"] an evaluation of the module
    adds no [injectStyles] call to the journal, whatever the package and the
    theme, and leaves the style target as it was. *)
Theorem production_never_injects (w : World) :
  count_injectStyles (calls (initialize Typography (Some "production") w).2)
    = count_injectStyles (calls w)
  ∧ document (initialize Typography (Some "production") w).2 = document w.
Proof.
  destruct (Typography (patch (DeYoung w))) as [e|typography] eqn:HT.
  - rewrite (initialize_constructor_throws _ w e HT). simpl.
    rewrite count_injectStyles_app. simpl. split; [lia|done].
  - rewrite (initialize_production w typography HT). simpl.
    rewrite count_injectStyles_app. simpl. split; [lia|done].
Qed.

(** C3.  With [NODE_ENV] anything but ["production"] (unset included), an
    evaluation that gets its engine at line 14 calls [injectStyles] exactly
    once, on that engine, right after the constructor, and the call takes
    effect: if it answers, the style target after the evaluation is the one
    it answered with and the module loads; if it throws, the module throws
    the same exception. *)
Theorem development_injects_once (NODE_ENV : option string) (w : World)
    (typography : Engine) :
  NODE_ENV ≠ Some "production" ->
  Typography (patch (DeYoung w)) = inr typography ->
  calls (initialize Typography NODE_ENV w).2
    = calls w ++ [CallNew (patch (DeYoung w)); CallInjectStyles typography]
  ∧ count_injectStyles (calls (initialize Typography NODE_ENV w).2)
    = S (count_injectStyles (calls w))
  ∧ match injectStyles typography (document w) with
    | inr d =>
        document (initialize Typography NODE_ENV w).2 = d
        ∧ (initialize Typography NODE_ENV w).1 = inr (exports_of typography)
    | inl e =>
        document (initialize Typography NODE_ENV w).2 = document w
        ∧ (initialize Typography NODE_ENV w).1 = inl e
    end.
Proof.
  intros Hne HT.
  destruct (injectStyles typography (document w)) as [e|d] eqn:Hinj.
  - rewrite (initialize_injection_throws _ w typography e Hne HT Hinj). simpl.
    split; [done|]. split; [|done].
    rewrite count_injectStyles_app. simpl. lia.
  - rewrite (initialize_injects _ w typography d Hne HT Hinj). simpl.
    split; [done|]. split; [|done].
    rewrite count_injectStyles_app. simpl. lia.
Qed.

(** C4, as the code has it.  The module checks nothing of the theme: for
    every theme, with or without a base font size, the first call of an
    evaluation is the constructor on the patched theme.  An evaluation fails
    only with an exception of the package, from the constructor or, outside
    production, from [injectStyles]; such an exception leaves the module as
    it is, nothing catches it. *)
Theorem initialize_delegates_validation (NODE_ENV : option string) (w : World) :
  (∃ rest, calls (initialize Typography NODE_ENV w).2
             = calls w ++ CallNew (patch (DeYoung w)) :: rest)
  ∧ (∀ e, Typography (patch (DeYoung w)) = inl e ->
          (initialize Typography NODE_ENV w).1 = inl e)
  ∧ (∀ e, (initialize Typography NODE_ENV w).1 = inl e ->
          Typography (patch (DeYoung w)) = inl e
          ∨ ∃ typography,
              Typography (patch (DeYoung w)) = inr typography
              ∧ NODE_ENV ≠ Some "production"
              ∧ injectStyles typography (document w) = inl e).
Proof.
  destruct (Typography (patch (DeYoung w))) as [e0|typography] eqn:HT.
  - rewrite (initialize_constructor_throws _ w e0 HT). simpl.
    split; [by exists []|]. split.
    + by intros e [= <-].
    + intros e [= <-]. by left.
  - destruct (decide (NODE_ENV = Some "production")) as [->|Hne].
    + rewrite (initialize_production w typography HT). simpl.
      split; [by exists []|]. split; [done|]. intros e He. discriminate He.
    + destruct (injectStyles typography (document w)) as [e1|d] eqn:Hinj.
      * rewrite (initialize_injection_throws _ w typography e1 Hne HT Hinj).
        simpl. split; [by eexists|]. split; [done|].
        intros e [= <-]. right. by exists typography.
      * rewrite (initialize_injects _ w typography d Hne HT Hinj).
        simpl. split; [by eexists|]. split; [done|]. intros e He. discriminate He.
Qed.

(** C9.  The constructor is called once, first, and with the theme as the
    patch left it, whose [overrideThemeStyles] maps
    ["a.gatsby-resp-image-link"] to [{boxShadow: "none"}]; after that call
    the module writes neither the theme nor the engine: the theme object at
    the end is the one the constructor saw, and the default export is the
    very engine the constructor answered with. *)
Theorem engine_sees_patched_theme (NODE_ENV : option string) (w : World) (a : Arg) :
  (∃ rest, calls (initialize Typography NODE_ENV w).2
             = calls w ++ CallNew (patch (DeYoung w)) :: rest
           ∧ count_new rest = 0)
  ∧ override_table (patch (DeYoung w)) a !! selector = Some {[ "boxShadow" := "none" ]}
  ∧ DeYoung (initialize Typography NODE_ENV w).2 = patch (DeYoung w)
  ∧ match (initialize Typography NODE_ENV w).1 with
    | inr exports => Typography (patch (DeYoung w)) = inr (export_default exports)
    | inl _ => True
    end.
Proof.
  assert (Hsel : override_table (patch (DeYoung w)) a !! selector
                 = Some {[ "boxShadow" := "none" ]}).
  { unfold override_table, patch. rewrite lookup_insert_eq.
    apply lookup_singleton_eq. }
  destruct (Typography (patch (DeYoung w))) as [e0|typography] eqn:HT.
  - rewrite (initialize_constructor_throws _ w e0 HT). simpl.
    split; [by exists []|done].
  - destruct (decide (NODE_ENV = Some "production")) as [->|Hne].
    + rewrite (initialize_production w typography HT). simpl.
      split; [by exists []|done].
    + destruct (injectStyles typography (document w)) as [e1|d] eqn:Hinj.
      * rewrite (initialize_injection_throws _ w typography e1 Hne HT Hinj).
        simpl. split; [by eexists|done].
      * rewrite (initialize_injects _ w typography d Hne HT Hinj).
        simpl. split; [by eexists|done].
Qed.

(** Evaluating the module again (a hot reload) patches a patched theme:
    the assignment writes the same function over itself. *)
Lemma patch_idempotent (theme : gmap string (@value Arg Number)) :
  patch (patch theme) = patch theme.
Proof. unfold patch. apply insert_insert_eq. Qed.

(** Whatever the flag, a module that loads exports the engine of line 14. *)
Lemma initialize_loaded NODE_ENV w exports :
  (initialize Typography NODE_ENV w).1 = inr exports ->
  ∃ typography,
    Typography (patch (DeYoung w)) = inr typography ∧ exports = exports_of typography.
Proof.
  intros Hload.
  destruct (Typography (patch (DeYoung w))) as [e0|typography] eqn:HT.
  - by rewrite (initialize_constructor_throws _ w e0 HT) in Hload.
  - exists typography. split; [done|].
    destruct (decide (NODE_ENV = Some "production")) as [->|Hne].
    + rewrite (initialize_production w typography HT) in Hload.
      simpl in Hload. congruence.
    + destruct (injectStyles typography (document w)) as [e1|d] eqn:Hinj.
      * by rewrite (initialize_injection_throws _ w typography e1 Hne HT Hinj) in Hload.
      * rewrite (initialize_injects _ w typography d Hne HT Hinj) in Hload.
        simpl in Hload. congruence.
Qed.

(** C10.  In a module that has loaded, the exported [rhythm] and [scale] are
    the [rhythm] and [scale] members of the default export, so they agree
    on every argument. *)
Theorem exports_are_members_of_default (NODE_ENV : option string) (w : World)
    (exports : Exports) :
  (initialize Typography NODE_ENV w).1 = inr exports ->
  export_rhythm exports = rhythm (export_default exports)
  ∧ export_scale exports = scale (export_default exports)
  ∧ (∀ x, export_rhythm exports x = rhythm (export_default exports) x)
  ∧ (∀ x, export_scale exports x = scale (export_default exports) x).
Proof.
  intros Hload.
  destruct (initialize_loaded _ _ _ Hload) as (typography & _ & ->).
  by simpl.
Qed.

End Properties.

(** *** The module on concrete inputs *)

Example production_run :
  calls (initialize Double.lenient (Some "production") (Double.boot Double.plain)).2
    = [CallNew (patch Double.plain)]
  ∧ document (initialize Double.lenient (Some "production") (Double.boot Double.plain)).2
    = [].
Proof. split; reflexivity. Qed.

Example development_run :
  calls (initialize Double.lenient (Some "development") (Double.boot Double.plain)).2
    = [CallNew (patch Double.plain); CallInjectStyles Double.stub]
  ∧ document (initialize Double.lenient (Some "development") (Double.boot Double.plain)).2
    = ["typography.js"].
Proof. split; reflexivity. Qed.

Example unset_flag_run :
  count_injectStyles
    (calls (initialize Double.lenient None (Double.boot Double.plain)).2) = 1.
Proof. reflexivity. Qed.

Example strict_package_run :
  (initialize Double.strict (Some "development") (Double.boot Double.sizeless)).1
    = inl "ConfigurationError"
  ∧ calls (initialize Double.strict (Some "development") (Double.boot Double.sizeless)).2
    = [CallNew (patch Double.sizeless)].
Proof. split; reflexivity. Qed.

Example headless_run :
  (initialize Double.headless (Some "development") (Double.boot Double.plain)).1
    = inl "no document"
  ∧ count_injectStyles
      (calls (initialize Double.headless (Some "development") (Double.boot Double.plain)).2)
    = 1.
Proof. split; reflexivity. Qed.


(** C3 at a concrete run: flag ["development"], a constructor that answers,
    an engine whose injection adds a style node to an empty page. *)
Lemma development_injects_once_witness :
  Some "development" ≠ Some "production"
  ∧ count_injectStyles
      (calls (initialize Double.lenient (Some "development")
                (Double.boot Double.plain)).2) = 1
  ∧ document (initialize Double.lenient (Some "development")
                (Double.boot Double.plain)).2 = ["typography.js"].
Proof.
  pose proof (development_injects_once Double.lenient (Some "development")
                (Double.boot Double.plain) Double.stub
                ltac:(discriminate) eq_refl) as (_ & Hcount & Hdoc & _).
  split; [discriminate|]. split; [exact Hcount|exact Hdoc].
Defined.

(** C4, the claim as written, fails: the theme has no base font size, and
    the module calls the constructor with it, gets an engine and loads. *)
Lemma sizeless_theme_loads :
  Double.sizeless !! "baseFontSize" = None
  ∧ (initialize Double.lenient (Some "production") (Double.boot Double.sizeless)).1
    = inr (exports_of Double.stub)
  ∧ calls (initialize Double.lenient (Some "production") (Double.boot Double.sizeless)).2
    = [CallNew (patch Double.sizeless)].
Proof. repeat split; reflexivity. Qed.

(** C10 at a concrete run: the module loads, and what it exports under the
    names [rhythm] and [scale] are the members of its default export. *)
Lemma exports_are_members_of_default_witness :
  (initialize Double.lenient (Some "development") (Double.boot Double.plain)).1
    = inr (exports_of Double.stub)
  ∧ export_rhythm (exports_of Double.stub) = rhythm Double.stub
  ∧ export_scale (exports_of Double.stub) = scale Double.stub.
Proof.
  split; [reflexivity|].
  pose proof (exports_are_members_of_default Double.lenient (Some "development")
                (Double.boot Double.plain) (exports_of Double.stub) eq_refl) as H.
  exact (conj (proj1 H) (proj1 (proj2 H))).
Defined.

(** ** Evaluating the module again, and what decides a run *)

Section Reevaluation.

Context {Arg Number Length ScaleResult Document Exn : Type}.

Variable Typography : gmap string (@value Arg Number)
                      -> Exn + @Engine Number Length ScaleResult Document Exn.

Implicit Types (w : @World Arg Number Length ScaleResult Document Exn).
Implicit Types (typography : @Engine Number Length ScaleResult Document Exn).
Implicit Types (exports : @Exports Number Length ScaleResult Document Exn).
Implicit Types (NODE_ENV : option string).

(** What the package's constructor is at the time of a second evaluation:
    the package may answer differently then, and it builds a new engine. *)
Variable Typography' : gmap string (@value Arg Number)
                       -> Exn + @Engine Number Length ScaleResult Document Exn.

(** X1.  Hot reload: a second evaluation outside production, on the world
    the first one left, finds the theme already patched and leaves it so,
    calls the constructor again on that same theme and, with no guard
    against it, calls [injectStyles] again, now on the new engine and on the
    style target the first injection produced; whatever that call answers
    is the style target afterwards. *)
Theorem reevaluation_injects_again NODE_ENV w typography typography' d :
  NODE_ENV ≠ Some "production" ->
  Typography (patch (DeYoung w)) = inr typography ->
  Typography' (patch (DeYoung w)) = inr typography' ->
  injectStyles typography (document w) = inr d ->
  let w1 := (initialize Typography NODE_ENV w).2 in
  let w2 := (initialize Typography' NODE_ENV w1).2 in
  DeYoung w1 = patch (DeYoung w)
  ∧ DeYoung w2 = DeYoung w1
  ∧ calls w2 = calls w ++ [CallNew (patch (DeYoung w)); CallInjectStyles typography;
                            CallNew (patch (DeYoung w)); CallInjectStyles typography']
  ∧ count_injectStyles (calls w2) = 2 + count_injectStyles (calls w)
  ∧ match injectStyles typography' d with
    | inr d' =>
        document w2 = d'
        ∧ (initialize Typography' NODE_ENV w1).1 = inr (exports_of typography')
    | inl e =>
        document w2 = d
        ∧ (initialize Typography' NODE_ENV w1).1 = inl e
    end.
Proof.
  intros Hne HT HT' Hinj w1 w2.
  assert (Hw1 : w1 = {| DeYoung := patch (DeYoung w); document := d;
                        calls := calls w ++ [CallNew (patch (DeYoung w))]
                                         ++ [CallInjectStyles typography] |}).
  { unfold w1. by rewrite (initialize_injects _ _ w typography d Hne HT Hinj). }
  assert (HT1 : Typography' (patch (DeYoung w1)) = inr typography').
  { rewrite Hw1. simpl. by rewrite patch_idempotent. }
  assert (Hdoc1 : document w1 = d) by by rewrite Hw1.
  assert (Hth1 : DeYoung w1 = patch (DeYoung w)) by by rewrite Hw1.
  assert (Hc1 : calls w1 = calls w ++ [CallNew (patch (DeYoung w));
                                       CallInjectStyles typography]) by by rewrite Hw1.
  split; [done|].
  destruct (injectStyles typography' d) as [e|d'] eqn:Hinj'.
  - rewrite <- Hdoc1 in Hinj'.
    unfold w2.
    rewrite (initialize_injection_throws _ _ w1 typography' e Hne HT1 Hinj').
    simpl. rewrite Hth1, patch_idempotent, Hc1, <- app_assoc. simpl.
    split; [done|]. split; [done|]. split; [|done].
    rewrite count_injectStyles_app. simpl. lia.
  - rewrite <- Hdoc1 in Hinj'.
    unfold w2.
    rewrite (initialize_injects _ _ w1 typography' d' Hne HT1 Hinj').
    simpl. rewrite Hth1, patch_idempotent, Hc1, <- app_assoc. simpl.
    split; [done|]. split; [done|]. split; [|done].
    rewrite count_injectStyles_app. simpl. lia.
Qed.

(** X2.  Outside production, once the engine is there, [injectStyles]
    decides the run.  If it answers with a style target, the module loads
    and that target is the new one; if it throws, the module throws the same
    exception, exports nothing, and the style target is as before. *)
Theorem injection_outcome_decides NODE_ENV w typography :
  NODE_ENV ≠ Some "production" ->
  Typography (patch (DeYoung w)) = inr typography ->
  match injectStyles typography (document w) with
  | inr d =>
      (initialize Typography NODE_ENV w).1 = inr (exports_of typography)
      ∧ document (initialize Typography NODE_ENV w).2 = d
  | inl e =>
      (initialize Typography NODE_ENV w).1 = inl e
      ∧ document (initialize Typography NODE_ENV w).2 = document w
  end.
Proof.
  intros Hne HT.
  destruct (injectStyles typography (document w)) as [e|d] eqn:Hinj.
  - by rewrite (initialize_injection_throws _ _ w typography e Hne HT Hinj).
  - by rewrite (initialize_injects _ _ w typography d Hne HT Hinj).
Qed.

End Reevaluation.

(** X1 at a concrete run: two development evaluations of an empty page;
    the second constructor builds an engine of its own. *)
Lemma reevaluation_injects_again_witness :
  let w1 := (initialize Double.lenient (Some "development")
               (Double.boot Double.plain)).2 in
  let w2 := (initialize Double.headless (Some "development") w1).2 in
  count_injectStyles (calls w2) = 2
  ∧ document w2 = ["typography.js"]
  ∧ (initialize Double.headless (Some "development") w1).1 = inl "no document".
Proof.
  pose proof (reevaluation_injects_again Double.lenient Double.headless
                (Some "development") (Double.boot Double.plain) Double.stub
                {| rhythm := fun m => m; scale := fun s => s;
                   injectStyles := fun _ => inl "no document" |}
                ["typography.js"]
                ltac:(discriminate) eq_refl eq_refl eq_refl)
    as (_ & _ & _ & Hcount & Hdoc & Hres).
  split; [exact Hcount|]. split; [exact Hdoc|exact Hres].
Defined.

(** X2 at a concrete run: the engine cannot reach the style target. *)
Lemma injection_outcome_decides_witness :
  (initialize Double.headless (Some "development") (Double.boot Double.plain)).1
    = inl "no document"
  ∧ document (initialize Double.headless (Some "development")
                (Double.boot Double.plain)).2 = [].
Proof.
  exact (injection_outcome_decides Double.headless (Some "development")
           (Double.boot Double.plain) _ ltac:(discriminate) eq_refl).
Defined.

(** ** The not-found page *)

Section NotFoundPage_properties.

Context {Arg Number Length ScaleResult Document Exn : Type}.

Variable Typography : gmap string (@value Arg Number)
                      -> Exn + @Engine Number Length ScaleResult Document Exn.

Implicit Types (w : @World Arg Number Length ScaleResult Document Exn).
Implicit Types (exports : @Exports Number Length ScaleResult Document Exn).
Implicit Types (props : gmap string (@js Number)).
Implicit Types (v : @js Number).

(** A read that does not throw answers with what [peek] sees. *)
Lemma member_peek v key :
  member v key = if nullish v then inl (TypeError key) else inr (peek v key).
Proof. by destruct v. Qed.

(** Nothing can be read through [undefined] or [null]. *)
Lemma peek_nullish v key : nullish v = true -> peek v key = JUndefined.
Proof. by destruct v. Qed.

(** [render] in terms of the three reads. *)
Lemma render_unfold exports quarter props :
  render exports quarter props =
    let data := prop props "data" in
    let site := peek data "site" in
    let siteMetadata := peek site "siteMetadata" in
    if nullish data then inl (TypeError "site")
    else if nullish site then inl (TypeError "siteMetadata")
    else if nullish siteMetadata then inl (TypeError "title")
    else inr (page (export_rhythm exports quarter) (prop props "location")
                (peek siteMetadata "title")).
Proof.
  unfold render. simpl. rewrite (member_peek (prop props "data")).
  destruct (nullish (prop props "data")); [done|].
  rewrite (member_peek (peek (prop props "data") "site")).
  destruct (nullish (peek (prop props "data") "site")); [done|].
  rewrite (member_peek (peek (peek (prop props "data") "site") "siteMetadata")).
  by destruct (nullish (peek (peek (prop props "data") "site") "siteMetadata")).
Qed.

(** X4.  [render] throws exactly when the walk down
    [data.site.siteMetadata.title] meets [undefined] or [null] before the
    last step, and the exception names the read that failed: ["site"] when
    [data] is missing, ["siteMetadata"] when [data.site] is, ["title"] when
    [data.site.siteMetadata] is.  A missing [title] is not among them. *)
Theorem render_throws_iff exports quarter props key :
  render exports quarter props = inl (TypeError key) ↔
    (key = "site" ∧ nullish (prop props "data") = true)
    ∨ (key = "siteMetadata"
       ∧ nullish (prop props "data") = false
       ∧ nullish (peek (prop props "data") "site") = true)
    ∨ (key = "title"
       ∧ nullish (peek (prop props "data") "site") = false
       ∧ nullish (peek (peek (prop props "data") "site") "siteMetadata") = true).
Proof.
  rewrite render_unfold. simpl.
  destruct (nullish (prop props "data")) eqn:Hdata.
  { rewrite (peek_nullish _ "site" Hdata). simpl. split.
    - intros [= <-]. by left.
    - intros [[-> _]|[(_ & H & _)|(_ & H & _)]]; [done|discriminate H..]. }
  destruct (nullish (peek (prop props "data") "site")) eqn:Hsite.
  { split.
    - intros [= <-]. right. by left.
    - intros [[_ H]|[(-> & _)|(_ & H & _)]]; [discriminate H|done|discriminate H]. }
  destruct (nullish (peek (peek (prop props "data") "site") "siteMetadata")) eqn:Hmd.
  { split.
    - intros [= <-]. right. by right.
    - intros [[_ H]|[(_ & _ & H)|(-> & _)]]; [discriminate H..|done]. }
  split; [discriminate|].
  intros [[_ H]|[(_ & _ & H)|(_ & _ & H)]]; discriminate H.
Qed.

(** X5.  With the typography module loaded and site metadata in the props,
    the page renders to a [Layout] that gets the location of the props as it
    is and the title of the metadata (a title that is not there goes to it
    as [undefined]), around four children: the [SEO] element titled
    ["404: Not Found"], the heading, the paragraph whose style has
    [marginBottom] equal to [rhythm(0.25)] of the engine built from the
    patched theme, and the [Link] to ["/"]. *)
Theorem render_uses_engine_rhythm NODE_ENV w exports (literal : Q -> Number) props :
  (initialize Typography NODE_ENV w).1 = inr exports ->
  nullish (peek (peek (prop props "data") "site") "siteMetadata") = false ->
  ∃ typography,
    Typography (patch (DeYoung w)) = inr typography
    ∧ exports = exports_of typography
    ∧ NotFoundPage literal exports props
      = inr (Element (Comp Layout)
               {[ "location" := AttrValue (prop props "location");
                  "title" := AttrValue
                    (peek (peek (peek (prop props "data") "site") "siteMetadata")
                       "title") ]}
               [ Element (Comp SEO)
                   {[ "title" := AttrValue (JString "404: Not Found") ]} [];
                 Element (Host "h1") ∅ [Text "Not Found"];
                 Element (Host "p")
                   {[ "style" := AttrStyle
                        {[ "marginBottom" := rhythm typography (literal (1 # 4)%Q) ]} ]}
                   [Text "You just hit a route that doesn't exist."];
                 Element (Comp Link) {[ "to" := AttrValue (JString "/") ]}
                   [Text "Go back to home-page."] ]).
Proof.
  intros Hload Hmd.
  destruct (initialize_loaded _ _ _ _ Hload) as (typography & HT & ->).
  exists typography. split; [done|]. split; [done|].
  unfold NotFoundPage. rewrite render_unfold. simpl.
  destruct (nullish (prop props "data")) eqn:Hdata.
  { by rewrite (peek_nullish _ "site" Hdata) in Hmd. }
  destruct (nullish (peek (prop props "data") "site")) eqn:Hsite.
  { by rewrite (peek_nullish _ "siteMetadata" Hsite) in Hmd. }
  by rewrite Hmd.
Qed.

End NotFoundPage_properties.

Example render_untitled :
  render (exports_of PageDouble.stub) (1 # 4)%Q PageDouble.untitled
    = inr (page (29 # 80)%Q JUndefined JUndefined).
Proof. reflexivity. Qed.

Example render_siteless :
  render (exports_of PageDouble.stub) (1 # 4)%Q PageDouble.siteless
    = inl (TypeError "siteMetadata").
Proof. reflexivity. Qed.

Example render_without_data :
  render (exports_of PageDouble.stub) (1 # 4)%Q ∅ = inl (TypeError "site").
Proof. reflexivity. Qed.

(** X5 at a concrete page: the module loaded in production, full props,
    numerals read as the rationals they are. *)
Lemma render_uses_engine_rhythm_witness :
  (initialize PageDouble.lenient (Some "production") PageDouble.boot).1
    = inr (exports_of PageDouble.stub)
  ∧ NotFoundPage (fun q => q) (exports_of PageDouble.stub) PageDouble.full
    = inr (Element (Comp Layout)
             {[ "location" := AttrValue (JObject {[ "pathname" := JString "/nowhere" ]});
                "title" := AttrValue (JString "Garden") ]}
             [ Element (Comp SEO)
                 {[ "title" := AttrValue (JString "404: Not Found") ]} [];
               Element (Host "h1") ∅ [Text "Not Found"];
               Element (Host "p")
                 {[ "style" := AttrStyle {[ "marginBottom" := (29 # 80)%Q ]} ]}
                 [Text "You just hit a route that doesn't exist."];
               Element (Comp Link) {[ "to" := AttrValue (JString "/") ]}
                 [Text "Go back to home-page."] ]).
Proof.
  split; [reflexivity|].
  destruct (render_uses_engine_rhythm PageDouble.lenient (Some "production")
              PageDouble.boot (exports_of PageDouble.stub) (fun q => q)
              PageDouble.full eq_refl eq_refl) as (typography & HT & _ & Hpage).
  injection HT as <-. exact Hpage.
Defined.
